(** * messagely: the user model and the message routes

    A shallow embedding of [models/user.js] and [routes/messages.js]:
    JavaScript values, the two tables the SQL statements work on, the
    statements themselves as [db.query] executes them, and the [async]
    methods as computations that read the clock, thread the database and
    may throw.  The route handlers receive [res] and [next]; the methods
    of [class User] name them without binding them. *)

From Stdlib Require Import String Ascii List ZArith Bool Lia Permutation.
Import ListNotations.
Local Open Scope string_scope.
Set Warnings "-register-all".

(** ** JavaScript values *)

Inductive jsval : Type :=
| JUndefined
| JNull
| JBool (b : bool)
| JNum (n : Z)
| JStr (s : string)
| JDate (t : Z)
| JObj (fields : list (string * jsval))
| JArr (items : list jsval).

(** What [!v], [a && b] and [if (v)] look at. *)
Definition truthy (v : jsval) : bool :=
  match v with
  | JUndefined | JNull => false
  | JBool b => b
  | JNum n => negb (Z.eqb n 0)
  | JStr s => negb (String.eqb s "")
  | JDate _ | JObj _ | JArr _ => true
  end.

Fixpoint assoc {A : Type} (k : string) (l : list (string * A)) : option A :=
  match l with
  | [] => None
  | (k', v) :: t => if String.eqb k k' then Some v else assoc k t
  end.

(** [o.k] on a value that is an object; a missing key reads [undefined]. *)
Definition prop (o : jsval) (k : string) : jsval :=
  match o with
  | JObj fields => match assoc k fields with Some v => v | None => JUndefined end
  | _ => JUndefined
  end.

Definition keys (o : jsval) : list string :=
  match o with
  | JObj fields => map fst fields
  | _ => []
  end.

(** [rows[i]]: reading past the end of an array gives [undefined]. *)
Definition index (rows : list jsval) (i : nat) : jsval := nth i rows JUndefined.

(** [o[k] = v]: overwrite the key in place, or add it at the end. *)
Fixpoint set_field (k : string) (v : jsval) (fields : list (string * jsval))
  : list (string * jsval) :=
  match fields with
  | [] => [(k, v)]
  | (k', v') :: t =>
      if String.eqb k k' then (k, v) :: t else (k', v') :: set_field k v t
  end.

(** The driver fills a row object column by column, so of two result
    columns with one name the later one is the one the object keeps. *)
Definition row_object (columns : list (string * jsval)) : jsval :=
  JObj (fold_left (fun acc kv => set_field (fst kv) (snd kv) acc) columns []).

(** ** Errors and results *)

Inductive error : Type :=
| ExpressError (message : string) (status : Z)
| DatabaseError (message : string)
| TypeError (message : string)
| ReferenceError (message : string)
| JsError (message : string).

(** How an [async] method or route handler ends.  Its promise resolves
    by [return v], by [return res.json(v)] or by [return next(e)], the
    last two where [res] and [next] are bound, as they are for the route
    handlers, whose parameters they are; or it is rejected with the error
    that left the function. *)
Inductive outcome : Type :=
| Return (v : jsval)
| ResJson (v : jsval)
| Next (e : error)
| Rejected (e : error).

(** ** The database *)

Record user_row : Type := mkUser {
  username : string;
  password : string;
  first_name : string;
  last_name : string;
  phone : string;
  join_at : Z;
  last_login_at : Z
}.

Record message_row : Type := mkMessage {
  id : Z;
  from_username : string;
  to_username : string;
  body : string;
  sent_at : Z;
  read_at : option Z
}.

(** The two tables, and the collation the database was created with: the
    order in which ORDER BY on a text column puts two strings. *)
Record db : Type := mkDb {
  collation : string -> string -> bool;
  users : list user_row;
  messages : list message_row
}.

(** Modelled from the spec: the schema file is not among the sources.  The
    columns are those of section 6, with the hash column under the name
    [password] that every statement of the source uses for it:
    users(username PK, password, first_name, last_name, phone, join_at,
    last_login_at). *)
Definition users_columns : list string :=
  ["username"; "password"; "first_name"; "last_name"; "phone"; "join_at";
   "last_login_at"].

(** Modelled from the spec: messages(id PK, from_username, to_username,
    body, sent_at, read_at NULLABLE), section 6. *)
Definition messages_columns : list string :=
  ["id"; "from_username"; "to_username"; "body"; "sent_at"; "read_at"].

Definition user_fields (u : user_row) : list (string * jsval) :=
  [("username", JStr (username u)); ("password", JStr (password u));
   ("first_name", JStr (first_name u)); ("last_name", JStr (last_name u));
   ("phone", JStr (phone u)); ("join_at", JDate (join_at u));
   ("last_login_at", JDate (last_login_at u))].

Definition nullable_date (t : option Z) : jsval :=
  match t with Some t => JDate t | None => JNull end.

Definition message_fields (m : message_row) : list (string * jsval) :=
  [("id", JNum (id m)); ("from_username", JStr (from_username m));
   ("to_username", JStr (to_username m)); ("body", JStr (body m));
   ("sent_at", JDate (sent_at m)); ("read_at", nullable_date (read_at m))].

Definition column (name : string) (fields : list (string * jsval)) : jsval :=
  match assoc name fields with Some v => v | None => JNull end.

(** The result row of a select list over one table row. *)
Definition project (names : list string) (fields : list (string * jsval)) : jsval :=
  row_object (map (fun n => (n, column n fields)) names).

(** ** Computations: the clock, the database, and exceptions *)

Definition M (A : Type) : Type := Z -> db -> db * (error + A).

Definition ret {A : Type} (a : A) : M A := fun _ d => (d, inr a).

Definition throw {A : Type} (e : error) : M A := fun _ d => (d, inl e).

Definition bind {A B : Type} (c : M A) (k : A -> M B) : M B :=
  fun now d =>
    match c now d with
    | (d', inl e) => (d', inl e)
    | (d', inr a) => k a now d'
    end.

Notation "x <- c ;; k" := (bind c (fun x => k))
  (at level 61, c at next level, right associativity).

(** A handler is what a caller sees of an [async] function: the database
    it leaves and how its promise ends. *)
Definition handler : Type := Z -> db -> db * outcome.

(** [try { body } catch (e) { return next(e) }] where [next] is bound. *)
Definition try_next (body : M outcome) : handler :=
  fun now d =>
    match body now d with
    | (d', inl e) => (d', Next e)
    | (d', inr o) => (d', o)
    end.

(** [try { body } catch (e) { handle(e) }] as the body of an [async]
    function: an error that leaves the catch block rejects the promise. *)
Definition try_catch (body : M outcome) (handle : error -> M outcome) : handler :=
  fun now d =>
    match body now d with
    | (d', inr o) => (d', o)
    | (d', inl e) =>
        match handle e now d' with
        | (d'', inr o) => (d'', o)
        | (d'', inl e') => (d'', Rejected e')
        end
    end.

(** ** The SQL statements of [models/user.js] *)

Inductive statement : Type :=
| INSERT_users
    (* INSERT INTO users (username, password, first_name, last_name, phone,
       join_at, last_login_at) VALUES ($1, $2, $3, $4, $5,
       current_timestamp, current_timestamp)
       RETURNING username, password, first_name, last_name, phone *)
| SELECT_credentials
    (* SELECT username, password FROM users WHERE username = $1 *)
| UPDATE_last_login
    (* UPDATE users SET last_login_at = current_timestamp
       WHERE username = $1 RETURNING username *)
| SELECT_all_users
    (* SELECT username, first_name, last_name, phone
       FROM users ORDER BY username *)
| SELECT_user
    (* SELECT username, first_name, last_name, phone, join_at,
       last_login_at FROM users WHERE username = $1 *)
| SELECT_messages_from
    (* SELECT id, to_username, body, sent_at, read_at
       FROM messages WHERE from_username = $1 *)
| SELECT_summary_without_from
    (* SELECT username, first_name, last_name, phone
       WHERE username = $1 *)
| SELECT_messages_to.
    (* SELECT m.id, m.from_username, m.body, m.sent_at, m.read_at, u.id,
       u.first_name, u.last_name, u.phone
       FROM messages AS m JOIN users AS u ON m.from_username = u.username
       WHERE to_username = $1 *)

(** The number of distinct [$n] of each statement. *)
Definition placeholders (s : statement) : nat :=
  match s with
  | INSERT_users => 5
  | SELECT_all_users => 0
  | _ => 1
  end.

(** Every column a statement names, with the columns of the table its
    FROM, INTO, UPDATE or alias resolves the name in; a statement without
    FROM has no table to resolve a name in. *)
Definition references (s : statement) : list (string * list string) :=
  let u c := (c, users_columns) in
  let m c := (c, messages_columns) in
  let none c := (c, @nil string) in
  match s with
  | INSERT_users =>
      map u ["username"; "password"; "first_name"; "last_name"; "phone";
             "join_at"; "last_login_at"]
  | SELECT_credentials => map u ["username"; "password"]
  | UPDATE_last_login => map u ["last_login_at"; "username"]
  | SELECT_all_users => map u ["username"; "first_name"; "last_name"; "phone"]
  | SELECT_user =>
      map u ["username"; "first_name"; "last_name"; "phone"; "join_at";
             "last_login_at"]
  | SELECT_messages_from =>
      map m ["id"; "to_username"; "body"; "sent_at"; "read_at"; "from_username"]
  | SELECT_summary_without_from =>
      map none ["username"; "first_name"; "last_name"; "phone"]
  | SELECT_messages_to =>
      map m ["id"; "from_username"; "body"; "sent_at"; "read_at"]
      ++ map u ["id"; "first_name"; "last_name"; "phone"; "username"]
      ++ map m ["to_username"]
  end%list.

Definition known (r : string * list string) : bool :=
  existsb (String.eqb (fst r)) (snd r).

(** The first name of the statement that is no column of its table. *)
Definition unknown_column (s : statement) : option string :=
  match filter (fun r => negb (known r)) (references s) with
  | [] => None
  | r :: _ => Some (fst r)
  end.

(** A bound value as text; [undefined], [null] and an empty array slot are
    sent as NULL.  Strings are the only values this program binds. *)
Definition sql_text (v : jsval) : option string :=
  match v with
  | JStr s => Some s
  | _ => None
  end.

(** [col = $n]: a comparison with NULL is never true. *)
Definition equals (col : string) (p : option string) : bool :=
  match p with
  | Some s => String.eqb col s
  | None => false
  end.

Fixpoint insert_by_username (leb : string -> string -> bool) (r : user_row)
    (l : list user_row) : list user_row :=
  match l with
  | [] => [r]
  | x :: t =>
      if leb (username r) (username x) then r :: x :: t
      else x :: insert_by_username leb r t
  end.

(** ORDER BY username, ascending in the order [leb] of the collation. *)
Definition order_by_username (leb : string -> string -> bool) (l : list user_row)
  : list user_row :=
  fold_right (insert_by_username leb) [] l.

Definition touch_login (now : Z) (u : user_row) : user_row :=
  mkUser (username u) (password u) (first_name u) (last_name u) (phone u)
         (join_at u) now.

Definition exec (s : statement) (values : list jsval) : M (list jsval) :=
  fun now d =>
    let p n := sql_text (nth n values JNull) in
    match s with
    | INSERT_users =>
        match p 0%nat, p 1%nat, p 2%nat, p 3%nat, p 4%nat with
        | Some u, Some pw, Some f, Some l, Some ph =>
            if existsb (fun r => String.eqb (username r) u) (users d)
            then (d, inl (DatabaseError
                   "duplicate key value violates unique constraint users_pkey"))
            else
              let r := mkUser u pw f l ph now now in
              (mkDb (collation d) (users d ++ [r]) (messages d),
               inr [project ["username"; "password"; "first_name"; "last_name";
                             "phone"] (user_fields r)])
        | _, _, _, _, _ =>
            (d, inl (DatabaseError "null value violates not-null constraint"))
        end
    | SELECT_credentials =>
        (d, inr (map (fun r => project ["username"; "password"] (user_fields r))
                     (filter (fun r => equals (username r) (p 0%nat)) (users d))))
    | UPDATE_last_login =>
        (mkDb (collation d)
              (map (fun r => if equals (username r) (p 0%nat)
                                   then touch_login now r else r) (users d))
              (messages d),
         inr (map (fun r => project ["username"] (user_fields r))
                  (filter (fun r => equals (username r) (p 0%nat)) (users d))))
    | SELECT_all_users =>
        (d, inr (map (fun r => project ["username"; "first_name"; "last_name";
                                        "phone"] (user_fields r))
                     (order_by_username (collation d) (users d))))
    | SELECT_user =>
        (d, inr (map (fun r => project ["username"; "first_name"; "last_name";
                                        "phone"; "join_at"; "last_login_at"]
                                       (user_fields r))
                     (filter (fun r => equals (username r) (p 0%nat)) (users d))))
    | SELECT_messages_from =>
        (d, inr (map (fun m => project ["id"; "to_username"; "body"; "sent_at";
                                        "read_at"] (message_fields m))
                     (filter (fun m => equals (from_username m) (p 0%nat))
                             (messages d))))
    | SELECT_summary_without_from =>
        (* no table, no rows *)
        (d, inr [])
    | SELECT_messages_to =>
        (d, inr (flat_map
                   (fun m =>
                      if equals (to_username m) (p 0%nat) then
                        map (fun u =>
                               row_object
                                 (map (fun n => (n, column n (message_fields m)))
                                      ["id"; "from_username"; "body"; "sent_at";
                                       "read_at"]
                                  ++ map (fun n => (n, column n (user_fields u)))
                                      ["id"; "first_name"; "last_name"; "phone"]))
                            (filter (fun u => String.eqb (from_username m)
                                                         (username u)) (users d))
                      else [])
                   (messages d)))
    end%list.

(** [await db.query(text, values)]: the server first parses the statement,
    rejecting a name that is no column, then binds the values, rejecting a
    count that differs from the statement's placeholders, then runs it. *)
Definition db_query (s : statement) (values : list jsval) : M (list jsval) :=
  fun now d =>
    match unknown_column s with
    | Some c => (d, inl (DatabaseError ("column " ++ c ++ " does not exist")))
    | None =>
        if Nat.eqb (length values) (placeholders s) then exec s values now d
        else (d, inl (DatabaseError
               "bind message supplies the wrong number of parameters"))
    end.

(** ** The collaborators of the model: bcrypt and the configuration *)

Class Bcrypt : Type := {
  bcrypt_hash : string -> Z -> string;
  bcrypt_compare : string -> string -> bool
}.

Class Config : Type := {
  BCRYPT_WORK_FACTOR : Z
}.

(** [await bcrypt.compare(data, encrypted)] rejects unless both are strings. *)
Definition compare_js `{Bcrypt} (data : string) (encrypted : jsval) : M bool :=
  match encrypted with
  | JStr h => ret (bcrypt_compare data h)
  | _ => throw (JsError "data and hash must be strings")
  end.

(** [const { ... } = v] throws when [v] is [undefined] or [null]. *)
Definition destructure (v : jsval) : M jsval :=
  match v with
  | JUndefined | JNull => throw (TypeError "Cannot destructure")
  | _ => ret v
  end.

(** ** [class User] *)

Module User.

(** [models/user.js] binds [db], [ExpressError], [bcrypt],
    [BCRYPT_WORK_FACTOR] and [authenticateJWT], and its methods take no
    [res] and no [next]: in this file both names are unbound, and
    evaluating either throws a ReferenceError. *)
Definition res_json (v : jsval) : M outcome :=
  throw (ReferenceError "res is not defined").

Definition next (e : error) : M outcome :=
  throw (ReferenceError "next is not defined").

Section Methods.
Context `{Bcrypt} `{Config}.

Definition register (username password first_name last_name phone : string)
  : handler :=
  try_catch (
    let hashedPwd := bcrypt_hash password BCRYPT_WORK_FACTOR in
    result <- db_query INSERT_users
                [JStr username; JStr hashedPwd; JStr first_name;
                 JStr last_name; JStr phone] ;;
    res_json (index result 0))
  next.

Definition authenticate (username password : string) : handler :=
  try_catch (
    result <- db_query SELECT_credentials [JStr username] ;;
    let user := index result 0 in
    if truthy user then
      ok <- compare_js password (prop user "password") ;;
      ret (Return (JBool ok))
    else ret (Return user))
  next.

(** The value array of the source is [[,username]]: an empty slot, then
    the username. *)
Definition updateLoginTimestamp (username : string) : handler :=
  try_catch (
    result <- db_query UPDATE_last_login [JUndefined; JStr username] ;;
    if negb (truthy (index result 0))
    then throw (ExpressError (username ++ " not found!") 404)
    else ret (Return (index result 0)))
  next.

Definition all : handler :=
  try_catch (
    result <- db_query SELECT_all_users [] ;;
    res_json (JArr result))
  next.

Definition get (username : string) : handler :=
  try_catch (
    result <- db_query SELECT_user [JStr username] ;;
    if negb (truthy (index result 0))
    then throw (ExpressError (username ++ " not found!") 404)
    else res_json (index result 0))
  next.

Definition messagesFrom (username : string) : handler :=
  try_catch (
    result <- db_query SELECT_messages_from [JStr username] ;;
    row <- destructure (index result 0) ;;
    let id := prop row "id" in
    let to_username := prop row "to_username" in
    let body := prop row "body" in
    let sent_at := prop row "sent_at" in
    let read_at := prop row "read_at" in
    toUserResult <- db_query SELECT_summary_without_from [to_username] ;;
    res_json (JObj [("id", id); ("to_user", index toUserResult 0);
                    ("body", body); ("sent_at", sent_at);
                    ("read_at", read_at)]))
  next.

Definition messagesTo (username : string) : handler :=
  try_catch (
    result <- db_query SELECT_messages_to [JStr username] ;;
    ret (Return (JArr (map (fun r =>
           JObj [("id", prop r "id");
                 ("from_user",
                  JObj [("username", prop r "from_username");
                        ("first_name", prop r "first_name");
                        ("last_name", prop r "last_name");
                        ("phone", prop r "phone")]);
                 ("body", prop r "body");
                 ("sent_at", prop r "sent_at");
                 ("read_at", prop r "read_at")]) result))))
  next.

End Methods.
End User.

(** ** [models/message.js], as the routes use it

    The routes require [../models/message] and call [Message.get(id)],
    [Message.create(from_username, to_username, body)] and
    [Message.markRead(id)].  The file is not among the sources, so the
    handlers below are written over this interface. *)

Class MessageModel : Type := {
  Message_get : Z -> M jsval;
  Message_create : jsval -> jsval -> jsval -> M jsval;
  Message_markRead : Z -> M jsval
}.

(** What a handler is given of the request: [req.params.id], [req.body]
    and the logged-in user, if any. *)
Record request : Type := mkRequest {
  params_id : Z;
  req_body : jsval;
  req_user : option string
}.

(** ** [routes/messages.js] *)

Module Router.
Section Handlers.
Context `{MessageModel}.

(** [router.get("/:id", ...)] *)
Definition get_id (req : request) : handler :=
  try_next (
    message <- Message_get (params_id req) ;;
    ret (ResJson (JObj [("message", message)]))).

(** [router.post("/", ...)] *)
Definition post_root (req : request) : handler :=
  try_next (
    b <- destructure (req_body req) ;;
    let from_username := prop b "from_username" in
    let to_username := prop b "to_username" in
    let body := prop b "body" in
    message <- Message_create from_username to_username body ;;
    ret (ResJson (JObj [("to_username", to_username);
                        ("body", JObj [("message", message)])]))).

(** [router.post("/:id/read", ...)] *)
Definition post_id_read (req : request) : handler :=
  try_next (
    message <- Message_markRead (params_id req) ;;
    ret (ResJson (JObj [("message", message)]))).

End Handlers.
End Router.

(** ** The message model of the spec *)

Definition read : M db := fun _ d => (d, inr d).
Definition clock : M Z := fun now d => (d, inr now).
Definition write (d' : db) : M unit := fun _ _ => (d', inr tt).

Definition find_user (u : string) (d : db) : option user_row :=
  find (fun r => String.eqb (username r) u) (users d).

Definition find_message (i : Z) (d : db) : option message_row :=
  find (fun m => Z.eqb (id m) i) (messages d).

(** The summary of a user: [{username, first_name, last_name, phone}]. *)
Definition summary (u : user_row) : jsval :=
  JObj [("username", JStr (username u)); ("first_name", JStr (first_name u));
        ("last_name", JStr (last_name u)); ("phone", JStr (phone u))].

(** The two answers section 4.2 allows to a second mark-read. *)
Inductive reread_policy : Type :=
| RejectReread   (* fail with ConflictError *)
| KeepReadAt.    (* return the existing read_at unchanged *)

Definition mark (i now : Z) (m : message_row) : message_row :=
  match read_at m with
  | None =>
      if Z.eqb (id m) i
      then mkMessage (id m) (from_username m) (to_username m) (body m)
                     (sent_at m) (Some now)
      else m
  | Some _ => m
  end.

Definition fresh_id (ms : list message_row) : Z :=
  (fold_right (fun m acc => Z.max (id m) acc) 0 ms + 1)%Z.

Module Message.
Section Methods.
Variable policy : reread_policy.

(** Modelled from the spec: [Message.get] of models/message.js, which is
    not among the sources.  Section 4.2: fetch the message by id, fail
    with NotFoundError (404) if absent, resolve [from_user] and [to_user]
    as participant summaries, answer [{id, body, sent_at, read_at,
    from_user, to_user}].  The identity argument of the spec's operation
    stands for the identity the source takes from the request (section
    9); the source's call passes the id alone, so the id is all this
    function is given. *)
Definition get (i : Z) : M jsval :=
  d <- read ;;
  match find_message i d with
  | None => throw (ExpressError "No such message" 404)
  | Some m =>
      match find_user (from_username m) d, find_user (to_username m) d with
      | Some f, Some t =>
          ret (JObj [("id", JNum (id m)); ("body", JStr (body m));
                     ("sent_at", JDate (sent_at m));
                     ("read_at", nullable_date (read_at m));
                     ("from_user", summary f); ("to_user", summary t)])
      | _, _ => throw (ExpressError "No such user" 404)
      end
  end.

(** Modelled from the spec: [Message.create] of models/message.js, which
    is not among the sources.  Section 4.2: [body] non-empty, else
    ValidationError (400); both usernames reference existing users, else
    NotFoundError (404); a new message with a unique id, [sent_at] the
    current time and [read_at] null; answer [{id, from_username,
    to_username, body, sent_at}]. *)
Definition create (from_username to_username body : jsval) : M jsval :=
  match from_username, to_username, body with
  | JStr f, JStr t, JStr b =>
      if String.eqb b "" then throw (ExpressError "body is required" 400)
      else
        d <- read ;;
        match find_user f d, find_user t d with
        | Some _, Some _ =>
            now <- clock ;;
            let m := mkMessage (fresh_id (messages d)) f t b now None in
            _ <- write (mkDb (collation d) (users d) (messages d ++ [m])) ;;
            ret (JObj [("id", JNum (id m)); ("from_username", JStr f);
                       ("to_username", JStr t); ("body", JStr b);
                       ("sent_at", JDate now)])
        | _, _ => throw (ExpressError "No such user" 404)
        end
  | _, _, _ => throw (ExpressError "missing field" 400)
  end.

(** Modelled from the spec: [Message.markRead] of models/message.js,
    which is not among the sources.  Sections 4.2 and 5: fetch the
    message, fail with NotFoundError (404) if absent; if [read_at] is
    already set, answer by the policy; otherwise set [read_at] to the
    current time by the conditional update (WHERE id = ? AND read_at IS
    NULL) and answer [{id, read_at}].  As for [get], the id is the only
    argument the source's call passes. *)
Definition markRead (i : Z) : M jsval :=
  d <- read ;;
  match find_message i d with
  | None => throw (ExpressError "No such message" 404)
  | Some m =>
      match read_at m with
      | Some t =>
          match policy with
          | RejectReread => throw (ExpressError "already read" 409)
          | KeepReadAt => ret (JObj [("id", JNum (id m)); ("read_at", JDate t)])
          end
      | None =>
          now <- clock ;;
          _ <- write (mkDb (collation d) (users d) (map (mark i now) (messages d))) ;;
          ret (JObj [("id", JNum (id m)); ("read_at", JDate now)])
      end
  end.

End Methods.
End Message.

Definition spec_model (policy : reread_policy) : MessageModel :=
  {| Message_get := Message.get;
     Message_create := Message.create;
     Message_markRead := Message.markRead policy |}.

(** ** A concrete scenario *)

(** A stand-in for the hashing primitive in concrete runs; the general
    statements hold for every instance. *)
Definition tagging_bcrypt : Bcrypt :=
  {| bcrypt_hash := fun p _ => "$2b$" ++ p;
     bcrypt_compare := fun data encrypted => String.eqb ("$2b$" ++ data) encrypted |}.

Definition twelve_rounds : Config := {| BCRYPT_WORK_FACTOR := 12 |}.

Definition alice : user_row := mkUser "alice" "$2b$pw1" "Alice" "Ames" "555-0001" 1 1.
Definition bob : user_row := mkUser "bob" "$2b$pw2" "Bob" "Byrd" "555-0002" 2 2.
Definition carol : user_row := mkUser "carol" "$2b$pw3" "Carol" "Cole" "555-0003" 3 3.

(** alice, bob and carol are registered; alice has sent bob two messages,
    neither read yet; the collation is the order of code points. *)
Definition scenario : db :=
  mkDb String.leb [alice; bob; carol]
       [mkMessage 1 "alice" "bob" "hi" 10 None;
        mkMessage 2 "alice" "bob" "are you there?" 11 None].

(** ** The operations of the system, and runs of them *)

Inductive operation : Type :=
| Register (username password first_name last_name phone : string)
| Authenticate (username password : string)
| UpdateLoginTimestamp (username : string)
| AllUsers
| GetUser (username : string)
| MessagesFrom (username : string)
| MessagesTo (username : string)
| GetMessage (req : request)
| PostMessage (req : request)
| PostRead (req : request).

Section Runs.
Context `{Bcrypt} `{Config} `{MessageModel}.

Definition perform (op : operation) : handler :=
  match op with
  | Register u p f l ph => User.register u p f l ph
  | Authenticate u p => User.authenticate u p
  | UpdateLoginTimestamp u => User.updateLoginTimestamp u
  | AllUsers => User.all
  | GetUser u => User.get u
  | MessagesFrom u => User.messagesFrom u
  | MessagesTo u => User.messagesTo u
  | GetMessage req => Router.get_id req
  | PostMessage req => Router.post_root req
  | PostRead req => Router.post_id_read req
  end.

(** A run: each operation with the time at which it is served. *)
Fixpoint run (ops : list (operation * Z)) (d : db) : db :=
  match ops with
  | [] => d
  | (op, now) :: rest => run rest (fst (perform op now d))
  end.

End Runs.

(** [read_at] of the message with the given id: [None] when there is no
    such message, [Some None] when it is unread. *)
Definition read_at_of (i : Z) (d : db) : option (option Z) :=
  option_map read_at (find_message i d).


(** A computation keeps [R] when the database it leaves is related by [R]
    to the one it was started in. *)
Definition keeps (R : db -> db -> Prop) {X : Type} (c : Z -> db -> db * X) : Prop :=
  forall now d, R d (fst (c now d)).

Definition same_messages (d d' : db) : Prop := messages d' = messages d.


(** The operations that are methods of [class User]. *)
Definition is_user_method (op : operation) : bool :=
  match op with
  | GetMessage _ | PostMessage _ | PostRead _ => false
  | _ => true
  end.

(** No two rows of [users] with one username. *)
Definition usernames_unique (d : db) : Prop := NoDup (map username (users d)).

(** * Properties *)

Local Open Scope Z_scope.

(** ** Computations that preserve a relation between databases *)

Section Frames.
Variable R : db -> db -> Prop.
Hypothesis R_refl : forall d, R d d.
Hypothesis R_trans : forall a b c, R a b -> R b c -> R a c.

Lemma keeps_ret {A : Type} (a : A) : keeps R (ret a).
Proof. intros now d. apply R_refl. Qed.

Lemma keeps_throw {A : Type} (e : error) : keeps R (@throw A e).
Proof. intros now d. apply R_refl. Qed.

Lemma keeps_bind {A B : Type} (c : M A) (k : A -> M B) :
  keeps R c -> (forall a, keeps R (k a)) -> keeps R (bind c k).
Proof.
  intros Hc Hk now d. unfold bind.
  specialize (Hc now d).
  destruct (c now d) as [d' [e | a]]; simpl in *.
  - exact Hc.
  - eapply R_trans; [exact Hc | apply Hk].
Qed.

Lemma keeps_try_next (body : M outcome) :
  keeps R body -> keeps R (try_next body).
Proof.
  intros Hb now d. unfold try_next.
  specialize (Hb now d).
  destruct (body now d) as [d' [e | o]]; exact Hb.
Qed.

Lemma keeps_destructure (v : jsval) : keeps R (destructure v).
Proof. destruct v; simpl; (apply keeps_throw || apply keeps_ret). Qed.

Lemma keeps_compare_js `{Bcrypt} (data : string) (encrypted : jsval) :
  keeps R (compare_js data encrypted).
Proof. destruct encrypted; simpl; (apply keeps_throw || apply keeps_ret). Qed.

Lemma keeps_if {X : Type} (b : bool) (c1 c2 : Z -> db -> db * X) :
  keeps R c1 -> keeps R c2 -> keeps R (if b then c1 else c2).
Proof. destruct b; auto. Qed.

End Frames.

Ltac keeps_steps :=
  repeat first
    [ apply keeps_try_next
    | apply keeps_bind; [ .. | intros ? ]
    | apply keeps_if
    | apply keeps_ret
    | apply keeps_throw
    | apply keeps_destructure
    | apply keeps_compare_js ].

Lemma select_is_read_only (s : statement) (values : list jsval) :
  s <> INSERT_users -> s <> UPDATE_last_login ->
  keeps eq (db_query s values).
Proof.
  intros Hi Hu now d. unfold db_query.
  destruct (unknown_column s); [reflexivity | ].
  destruct (Nat.eqb _ _); [ | reflexivity ].
  destruct s; try reflexivity; congruence.
Qed.

Lemma queries_keep_messages (s : statement) (values : list jsval) :
  keeps same_messages (db_query s values).
Proof.
  intros now d. unfold db_query, same_messages.
  destruct (unknown_column s); [reflexivity | ].
  destruct (Nat.eqb _ _); [ | reflexivity ].
  destruct s; simpl; try reflexivity.
  repeat match goal with
         | |- context [match ?x with _ => _ end] => destruct x; simpl; try reflexivity
         end.
Qed.

(** ** The promise of a method of [User] *)

Lemma keeps_try_catch (R : db -> db -> Prop)
    (R_trans : forall a b c, R a b -> R b c -> R a c)
    (body : M outcome) (handle : error -> M outcome) :
  keeps R body -> (forall e, keeps R (handle e)) -> keeps R (try_catch body handle).
Proof.
  intros Hb Hh now d. unfold try_catch.
  specialize (Hb now d).
  destruct (body now d) as [d' [e | o]]; simpl in *; [ | exact Hb].
  specialize (Hh e now d').
  destruct (handle e now d') as [d'' [e' | o]]; simpl in *;
    eapply R_trans; eassumption.
Qed.

Lemma keeps_res_json (R : db -> db -> Prop) (R_refl : forall d, R d d) (v : jsval) :
  keeps R (User.res_json v).
Proof. intros now d. apply R_refl. Qed.

Lemma keeps_next (R : db -> db -> Prop) (R_refl : forall d, R d d) (e : error) :
  keeps R (User.next e).
Proof. intros now d. apply R_refl. Qed.

Ltac keeps_user_steps :=
  cbv zeta;
  repeat first
    [ apply keeps_try_catch; [ .. | | intros ? ]
    | apply keeps_res_json
    | apply keeps_next
    | progress keeps_steps ].

(** An error thrown in the [try] of a method of [User] reaches the catch
    block, whose [next] is unbound: the promise is rejected with the
    ReferenceError, whatever the first error was. *)
Lemma thrown_in_user_method_is_rejected (body : M outcome) (now : Z) (d d' : db)
    (e : error) :
  body now d = (d', inl e) ->
  try_catch body User.next now d
  = (d', Rejected (ReferenceError "next is not defined")).
Proof. intros Hbody. unfold try_catch. rewrite Hbody. reflexivity. Qed.

(** ** [User.authenticate] *)

Lemma credentials_of_first_match (u : string) (l : list user_row) :
  index (map (fun r => project ["username"; "password"] (user_fields r))
             (filter (fun r => equals (username r) (Some u)) l)) 0%nat
  = match find (fun r => String.eqb (username r) u) l with
    | Some r => JObj [("username", JStr (username r)); ("password", JStr (password r))]
    | None => JUndefined
    end.
Proof.
  induction l as [ | r l IH]; simpl; [reflexivity | ].
  destruct (String.eqb (username r) u); [reflexivity | exact IH].
Qed.

Lemma select_credentials (u : string) (now : Z) (d : db) :
  db_query SELECT_credentials [JStr u] now d
  = (d, inr (map (fun r => project ["username"; "password"] (user_fields r))
                 (filter (fun r => equals (username r) (Some u)) (users d)))).
Proof. reflexivity. Qed.

(** A registered username: the answer is the boolean of [bcrypt.compare]
    on the stored hash. *)
Lemma authenticate_registered `{Bcrypt} (u p : string) (now : Z) (d : db) (r : user_row) :
  find_user u d = Some r ->
  User.authenticate u p now d = (d, Return (JBool (bcrypt_compare p (password r)))).
Proof.
  unfold find_user. intros Hr.
  unfold User.authenticate, try_catch, bind.
  rewrite select_credentials, credentials_of_first_match, Hr. reflexivity.
Qed.

(** An unknown username: the answer is [rows[0]] itself, [undefined]. *)
Lemma authenticate_unregistered `{Bcrypt} (u p : string) (now : Z) (d : db) :
  find_user u d = None ->
  User.authenticate u p now d = (d, Return JUndefined).
Proof.
  unfold find_user. intros Hr.
  unfold User.authenticate, try_catch, bind.
  rewrite select_credentials, credentials_of_first_match, Hr. reflexivity.
Qed.

(** C5 (the code at the failing input).  With alice, bob and carol
    registered, [authenticate("nobody", "x")] returns [undefined], which
    is not the boolean [false]; for a registered user it does return the
    booleans [true] and [false]. *)
Theorem authenticate_unknown_user_returns_undefined :
  @User.authenticate tagging_bcrypt "nobody" "x" 20 scenario
    = (scenario, Return JUndefined)
  /\ Return JUndefined <> Return (JBool false)
  /\ @User.authenticate tagging_bcrypt "alice" "pw1" 20 scenario
    = (scenario, Return (JBool true))
  /\ @User.authenticate tagging_bcrypt "alice" "wrongpw" 20 scenario
    = (scenario, Return (JBool false)).
Proof. repeat split; try reflexivity. discriminate. Qed.

(** C10.  [authenticate] leaves the database as it found it, whatever the
    username and the password and whatever it answers: every user record,
    [last_login_at] included, is unchanged. *)
Theorem authenticate_is_read_only `{Bcrypt} (u p : string) (now : Z) (d : db) :
  fst (User.authenticate u p now d) = d.
Proof.
  symmetry. revert now d.
  change (keeps eq (User.authenticate u p)).
  unfold User.authenticate.
  keeps_user_steps; try solve [intros; congruence].
  apply select_is_read_only; discriminate.
Qed.

(** ** [User.updateLoginTimestamp] *)

(** The statement has one placeholder and is given two values, so the
    query is rejected when the values are bound, before any row is
    touched. *)
Lemma update_is_rejected_at_bind (u : string) (now : Z) (d : db) :
  db_query UPDATE_last_login [JUndefined; JStr u] now d
  = (d, inl (DatabaseError "bind message supplies the wrong number of parameters")).
Proof. reflexivity. Qed.

Lemma updateLoginTimestamp_never_updates (u : string) (now : Z) (d : db) :
  User.updateLoginTimestamp u now d
  = (d, Rejected (ReferenceError "next is not defined")).
Proof. reflexivity. Qed.

(** C6 (the code at the failing input).  alice is registered with
    [last_login_at] 1; in [updateLoginTimestamp("alice")] at time 20 the
    query is rejected by the database, the promise is rejected (the catch
    block's [next] is unbound), no confirmation is returned and
    [last_login_at] is left at 1. *)
Theorem updateLoginTimestamp_existing_user_fails :
  find_user "alice" scenario = Some alice
  /\ db_query UPDATE_last_login [JUndefined; JStr "alice"] 20 scenario
     = (scenario,
        inl (DatabaseError "bind message supplies the wrong number of parameters"))
  /\ User.updateLoginTimestamp "alice" 20 scenario
     = (scenario, Rejected (ReferenceError "next is not defined"))
  /\ option_map last_login_at
       (find_user "alice" (fst (User.updateLoginTimestamp "alice" 20 scenario)))
     = Some 1.
Proof. repeat split; reflexivity. Qed.

(** ** [User.messagesFrom] and [User.messagesTo] *)

(** [messagesFrom] never answers: with no message sent the destructuring
    of [rows[0]] throws, and otherwise the second statement, which has no
    FROM, is rejected; either error ends in the catch block, whose [next]
    is unbound. *)
Lemma messagesFrom_always_fails (u : string) (now : Z) (d : db) :
  User.messagesFrom u now d
  = (d, Rejected (ReferenceError "next is not defined")).
Proof.
  unfold User.messagesFrom, try_catch, bind, db_query; simpl.
  match goal with
  | |- context [destructure ?v] => destruct v; reflexivity
  end.
Qed.

(** C8 (the code at the failing input).  alice has sent two messages;
    in [messagesFrom("alice")] the statement for the recipient's summary
    is rejected by the database and the promise is rejected; the two
    summaries are not returned. *)
Theorem messagesFrom_sender_of_two_gets_error :
  filter (fun m => String.eqb (from_username m) "alice") (messages scenario)
    = messages scenario
  /\ db_query SELECT_summary_without_from [JStr "bob"] 20 scenario
     = (scenario, inl (DatabaseError "column username does not exist"))
  /\ User.messagesFrom "alice" 20 scenario
     = (scenario, Rejected (ReferenceError "next is not defined")).
Proof. repeat split; reflexivity. Qed.

(** [users] has no column [id], so the statement of [messagesTo] is
    rejected whatever the database holds, and the promise with it. *)
Lemma messagesTo_always_fails (u : string) (now : Z) (d : db) :
  User.messagesTo u now d
  = (d, Rejected (ReferenceError "next is not defined")).
Proof. reflexivity. Qed.

(** C9 (the code at the failing input).  bob has been sent two messages;
    in [messagesTo("bob")] the statement is rejected by the database and
    the promise is rejected; the two summaries are not returned. *)
Theorem messagesTo_recipient_of_two_gets_error :
  filter (fun m => String.eqb (to_username m) "bob") (messages scenario)
    = messages scenario
  /\ db_query SELECT_messages_to [JStr "bob"] 20 scenario
     = (scenario, inl (DatabaseError "column id does not exist"))
  /\ User.messagesTo "bob" 20 scenario
     = (scenario, Rejected (ReferenceError "next is not defined")).
Proof. repeat split; reflexivity. Qed.

(** ** [User.register] *)

Lemma insert_users (u h f l ph : string) (now : Z) (d : db) :
  db_query INSERT_users [JStr u; JStr h; JStr f; JStr l; JStr ph] now d
  = if existsb (fun r => String.eqb (username r) u) (users d)
    then (d, inl (DatabaseError
                    "duplicate key value violates unique constraint users_pkey"))
    else (mkDb (collation d) (users d ++ [mkUser u h f l ph now now]) (messages d),
          inr [JObj [("username", JStr u); ("password", JStr h);
                     ("first_name", JStr f); ("last_name", JStr l);
                     ("phone", JStr ph)]]).
Proof. reflexivity. Qed.

Lemma no_match_no_witness {A : Type} (f : A -> bool) (l : list A) :
  find f l = None -> existsb f l = false.
Proof.
  induction l as [ | a l IH]; simpl; [reflexivity | ].
  destruct (f a); [discriminate | exact IH].
Qed.




(** ** [User.all] *)

(** [all] never answers: the rows are selected, and then [res] is
    unbound, and [next] after it. *)
Lemma all_always_rejects (now : Z) (d : db) :
  User.all now d = (d, Rejected (ReferenceError "next is not defined")).
Proof. reflexivity. Qed.

(** C7 (the code at the failing input).  With alice, bob and carol
    stored, the statement of [all()] selects three rows, but [all()]
    returns no sequence: its promise is rejected. *)
Theorem all_rejects_instead_of_listing :
  (exists rows,
     db_query SELECT_all_users [] 20 scenario = (scenario, inr rows)
     /\ length rows = 3%nat)
  /\ User.all 20 scenario
     = (scenario, Rejected (ReferenceError "next is not defined")).
Proof. split; [eexists; split; reflexivity | reflexivity]. Qed.

(** ** The message routes *)

(** Neither GET /:id nor POST /:id/read looks at who sent the request,
    whatever the message model does with the id. *)
Lemma get_id_ignores_requester `{MessageModel} (i : Z) (b b' : jsval)
    (u u' : option string) :
  Router.get_id (mkRequest i b u) = Router.get_id (mkRequest i b' u').
Proof. reflexivity. Qed.

Lemma post_id_read_ignores_requester `{MessageModel} (i : Z) (b b' : jsval)
    (u u' : option string) :
  Router.post_id_read (mkRequest i b u) = Router.post_id_read (mkRequest i b' u').
Proof. reflexivity. Qed.

(** C1 (the code at the failing input).  Message 1 is from alice to bob.
    GET /1 by carol, who is neither, is answered with the whole message
    and not with an error of status 403; and whatever the message model,
    the handler answers every requester as it answers bob. *)
Theorem get_route_answers_non_participant (policy : reread_policy) :
  option_map (fun m => (from_username m, to_username m)) (find_message 1 scenario)
    = Some ("alice", "bob")
  /\ @Router.get_id (spec_model policy) (mkRequest 1 JUndefined (Some "carol"))
       20 scenario
     = (scenario,
        ResJson (JObj [("message",
          JObj [("id", JNum 1); ("body", JStr "hi"); ("sent_at", JDate 10);
                ("read_at", JNull);
                ("from_user", summary alice); ("to_user", summary bob)])]))
  /\ forall (model : MessageModel) (u : option string) (now : Z) (d : db),
       @Router.get_id model (mkRequest 1 JUndefined u) now d
       = @Router.get_id model (mkRequest 1 JUndefined (Some "bob")) now d.
Proof. repeat split. Qed.

(** C2 (the code at the failing input).  Message 1 is from alice to bob
    and unread.  POST /1/read by alice, the sender, is answered with
    [{id, read_at}] and sets [read_at]; and whatever the message model,
    the handler answers every requester as it answers bob. *)
Theorem read_route_lets_sender_mark_read (policy : reread_policy) :
  read_at_of 1 scenario = Some None
  /\ @Router.post_id_read (spec_model policy)
       (mkRequest 1 JUndefined (Some "alice")) 20 scenario
     = (mkDb (collation scenario) (users scenario)
             [mkMessage 1 "alice" "bob" "hi" 10 (Some 20);
              mkMessage 2 "alice" "bob" "are you there?" 11 None],
        ResJson (JObj [("message", JObj [("id", JNum 1); ("read_at", JDate 20)])]))
  /\ forall (model : MessageModel) (u : option string) (now : Z) (d : db),
       @Router.post_id_read model (mkRequest 1 JUndefined u) now d
       = @Router.post_id_read model (mkRequest 1 JUndefined (Some "bob")) now d.
Proof. repeat split. Qed.

(** ** [read_at] along runs *)

Lemma same_messages_refl (d : db) : same_messages d d.
Proof. reflexivity. Qed.

Lemma same_messages_trans (a b c : db) :
  same_messages a b -> same_messages b c -> same_messages a c.
Proof. unfold same_messages. congruence. Qed.

Ltac keeps_messages :=
  keeps_user_steps;
  first [ exact same_messages_refl
        | exact same_messages_trans
        | apply queries_keep_messages ].

Lemma user_methods_keep_messages `{Bcrypt} `{Config} `{MessageModel}
    (op : operation) :
  match op with
  | GetMessage _ | PostMessage _ | PostRead _ => True
  | _ => keeps same_messages (perform op)
  end.
Proof.
  destruct op; simpl; try exact I.
  - unfold User.register. keeps_messages.
  - unfold User.authenticate. keeps_messages.
  - unfold User.updateLoginTimestamp. keeps_messages.
  - unfold User.all. keeps_messages.
  - unfold User.get. keeps_messages.
  - unfold User.messagesFrom. keeps_messages.
  - unfold User.messagesTo. keeps_messages.
Qed.

Lemma get_route_is_read_only (policy : reread_policy) (req : request)
    (now : Z) (d : db) :
  fst (@Router.get_id (spec_model policy) req now d) = d.
Proof.
  unfold Router.get_id, try_next, bind; simpl.
  unfold Message.get, bind, read; simpl.
  destruct (find_message (params_id req) d) as [m | ]; simpl; [ | reflexivity].
  destruct (find_user (from_username m) d); simpl; [ | reflexivity].
  destruct (find_user (to_username m) d); reflexivity.
Qed.

Lemma create_appends_unread (f t b : jsval) (now : Z) (d : db) :
  fst (Message.create f t b now d) = d
  \/ exists m, read_at m = None
              /\ fst (Message.create f t b now d) = mkDb (collation d) (users d) (messages d ++ [m]).
Proof.
  unfold Message.create.
  destruct f as [ | | | | f | | | ]; try (left; reflexivity).
  destruct t as [ | | | | t | | | ]; try (left; reflexivity).
  destruct b as [ | | | | b | | | ]; try (left; reflexivity).
  destruct (String.eqb b ""); [left; reflexivity | ].
  unfold bind, read, clock, write.
  destruct (find_user f d); [ | left; reflexivity].
  destruct (find_user t d); [ | left; reflexivity].
  right. eexists. split; [ | reflexivity]. reflexivity.
Qed.

(** POST / leaves the messages as they are or adds one unread message at
    the end. *)
Lemma post_route_appends_unread (policy : reread_policy) (req : request)
    (now : Z) (d : db) :
  let d' := fst (@Router.post_root (spec_model policy) req now d) in
  d' = d
  \/ exists m, read_at m = None /\ d' = mkDb (collation d) (users d) (messages d ++ [m]).
Proof.
  unfold Router.post_root, try_next, bind. cbv zeta.
  assert (Hbody : forall v, destructure v now d = (d, inr v)
                            \/ exists e, destructure v now d = (d, inl e)).
  { intros v. destruct v; unfold destructure, ret, throw;
      first [left; reflexivity | right; eexists; reflexivity]. }
  destruct (Hbody (req_body req)) as [-> | (e & ->)]; [ | left; reflexivity].
  simpl Message_create.
  match goal with
  | |- context [Message.create ?f ?t ?b now d] =>
      pose proof (create_appends_unread f t b now d) as Hcreate;
      destruct (Message.create f t b now d) as [d1 [e | message]]
  end; exact Hcreate.
Qed.

(** POST /:id/read either changes nothing, or finds the message unread,
    answers with JSON and applies [mark] to the messages. *)
Lemma read_route_cases (policy : reread_policy) (req : request) (now : Z) (d : db) :
  let r := @Router.post_id_read (spec_model policy) req now d in
  fst r = d
  \/ (read_at_of (params_id req) d = Some None
      /\ fst r = mkDb (collation d) (users d) (map (mark (params_id req) now) (messages d))
      /\ exists v, snd r = ResJson v).
Proof.
  unfold Router.post_id_read, try_next, bind, read_at_of; simpl.
  unfold Message.markRead, bind, read; simpl.
  destruct (find_message (params_id req) d) as [m | ]; simpl; [ | left; reflexivity].
  destruct (read_at m) as [t | ]; simpl.
  - destruct policy; left; reflexivity.
  - right. split; [reflexivity | ]. split; [reflexivity | ].
    eexists; reflexivity.
Qed.

Lemma read_route_failure_changes_nothing (policy : reread_policy)
    (req : request) (now : Z) (d : db) (e : error) :
  snd (@Router.post_id_read (spec_model policy) req now d) = Next e ->
  fst (@Router.post_id_read (spec_model policy) req now d) = d.
Proof.
  intros Hfail.
  destruct (read_route_cases policy req now d) as [Hsame | (_ & _ & v & Hv)].
  - exact Hsame.
  - rewrite Hv in Hfail. discriminate.
Qed.

Lemma read_at_after_mark (i i0 now : Z) (c : string -> string -> bool)
    (us : list user_row) (ms : list message_row) :
  read_at_of i (mkDb c us (map (mark i0 now) ms))
  = match read_at_of i (mkDb c us ms) with
    | Some None => if Z.eqb i i0 then Some (Some now) else Some None
    | other => other
    end.
Proof.
  unfold read_at_of, find_message; simpl.
  induction ms as [ | m ms IH]; simpl; [reflexivity | ].
  assert (Hid : id (mark i0 now m) = id m).
  { unfold mark. destruct (read_at m); [reflexivity | ].
    destruct (Z.eqb (id m) i0); reflexivity. }
  rewrite Hid.
  destruct (Z.eqb (id m) i) eqn:Hi; [ | exact IH].
  simpl. apply Z.eqb_eq in Hi. subst i.
  unfold mark. destruct (read_at m) as [t | ] eqn:Hr; simpl.
  - rewrite Hr. reflexivity.
  - destruct (Z.eqb (id m) i0); simpl; [reflexivity | rewrite Hr; reflexivity].
Qed.

Lemma read_at_after_append (i : Z) (c : string -> string -> bool)
    (us : list user_row) (ms : list message_row) (m : message_row) :
  read_at_of i (mkDb c us (ms ++ [m]))
  = match read_at_of i (mkDb c us ms) with
    | Some r => Some r
    | None => if Z.eqb (id m) i then Some (read_at m) else None
    end.
Proof.
  unfold read_at_of, find_message; simpl.
  induction ms as [ | x ms IH]; simpl.
  - destruct (Z.eqb (id m) i); reflexivity.
  - destruct (Z.eqb (id x) i); [reflexivity | exact IH].
Qed.

Lemma read_at_of_messages (i : Z) (d d' : db) :
  messages d' = messages d -> read_at_of i d' = read_at_of i d.
Proof. unfold read_at_of, find_message. intros ->. reflexivity. Qed.

(** What one operation can do to the [read_at] of one message. *)
Lemma read_at_step `{Bcrypt} `{Config} (policy : reread_policy)
    (op : operation) (now : Z) (d : db) (i : Z) :
  let r := @perform _ _ (spec_model policy) op now d in
  read_at_of i (fst r) = read_at_of i d
  \/ (read_at_of i d = None /\ read_at_of i (fst r) = Some None
      /\ exists req, op = PostMessage req)
  \/ (read_at_of i d = Some None /\ read_at_of i (fst r) = Some (Some now)
      /\ exists req v, op = PostRead req /\ params_id req = i /\ snd r = ResJson v).
Proof.
  pose proof (@user_methods_keep_messages _ _ (spec_model policy) op) as Huser.
  destruct op; cbv zeta; unfold perform in *;
    try (left; apply read_at_of_messages; apply Huser).
  - left. rewrite get_route_is_read_only. reflexivity.
  - destruct (post_route_appends_unread policy req now d) as [-> | (m & Hm & ->)];
      [left; reflexivity | ].
    destruct d as [c us ms]; simpl.
    rewrite read_at_after_append, Hm.
    destruct (read_at_of i (mkDb c us ms)) as [r | ]; [left; reflexivity | ].
    destruct (Z.eqb (id m) i); [ | left; reflexivity].
    right; left. repeat split. eexists; reflexivity.
  - destruct (read_route_cases policy req now d) as [-> | (Hunread & -> & v & Hv)];
      [left; reflexivity | ].
    destruct d as [c us ms]; simpl in *.
    rewrite read_at_after_mark.
    destruct (read_at_of i (mkDb c us ms)) as [[t | ] | ] eqn:Hi;
      try (left; reflexivity).
    destruct (Z.eqb i (params_id req)) eqn:Hreq; [ | left; reflexivity].
    apply Z.eqb_eq in Hreq.
    right; right. repeat split. exists req, v. repeat split; [congruence | exact Hv].
Qed.

(** C3.  With the message model of the spec behind the routes, under
    either answer to a second mark-read: (1) one operation leaves the
    [read_at] of a message as it is, or creates the message unread, or is
    a successful POST /:id/read of that very message that takes it from
    null to the current time; (2) once [read_at] is a timestamp it is that
    timestamp after every run of operations; (3) a POST /:id/read that
    ends in an error leaves the database untouched. *)
Theorem read_at_is_set_at_most_once `{Bcrypt} `{Config} (policy : reread_policy) :
  (forall (op : operation) (now : Z) (d : db) (i : Z),
     let r := @perform _ _ (spec_model policy) op now d in
     read_at_of i (fst r) = read_at_of i d
     \/ (read_at_of i d = None /\ read_at_of i (fst r) = Some None
         /\ exists req, op = PostMessage req)
     \/ (read_at_of i d = Some None /\ read_at_of i (fst r) = Some (Some now)
         /\ exists req v,
              op = PostRead req /\ params_id req = i /\ snd r = ResJson v))
  /\ (forall (ops : list (operation * Z)) (d : db) (i t : Z),
        read_at_of i d = Some (Some t) ->
        read_at_of i (@run _ _ (spec_model policy) ops d) = Some (Some t))
  /\ (forall (req : request) (now : Z) (d : db) (e : error),
        snd (@perform _ _ (spec_model policy) (PostRead req) now d) = Next e ->
        fst (@perform _ _ (spec_model policy) (PostRead req) now d) = d).
Proof.
  split; [ | split].
  - intros op now d i. apply read_at_step.
  - induction ops as [ | [op now] ops IH]; intros d i t Hset; simpl; [exact Hset | ].
    apply IH.
    destruct (read_at_step policy op now d i) as [Hsame | [(Hnone & _) | (Hnull & _)]];
      congruence.
  - intros req now d e. apply read_route_failure_changes_nothing.
Qed.

Lemma read_at_is_set_at_most_once_witness :
  let model := spec_model RejectReread in
  let bob_reads := PostRead (mkRequest 1 JUndefined (Some "bob")) in
  let d1 := fst (@perform tagging_bcrypt twelve_rounds model bob_reads 20 scenario) in
  let later :=
    [(bob_reads, 30);
     (PostRead (mkRequest 1 JUndefined (Some "alice")), 40);
     (PostMessage (mkRequest 0 (JObj [("from_username", JStr "bob");
                                      ("to_username", JStr "alice");
                                      ("body", JStr "yes")]) (Some "bob")), 50);
     (Register "dave" "pw4" "Dave" "Dunn" "555-0004", 60);
     (GetMessage (mkRequest 1 JUndefined (Some "carol")), 70)] in
  read_at_of 1 d1 = Some (Some 20)
  /\ read_at_of 1 (@run tagging_bcrypt twelve_rounds model later d1) = Some (Some 20)
  /\ snd (@perform tagging_bcrypt twelve_rounds model bob_reads 30 d1)
     = Next (ExpressError "already read" 409)
  /\ fst (@perform tagging_bcrypt twelve_rounds model bob_reads 30 d1) = d1.
Proof.
  intros model bob_reads d1 later.
  pose proof (@read_at_is_set_at_most_once tagging_bcrypt twelve_rounds RejectReread)
    as (_ & Hrun & Hfail).
  split; [reflexivity | ].
  split; [apply Hrun; reflexivity | ].
  split; [reflexivity | ].
  apply (Hfail (mkRequest 1 JUndefined (Some "bob")) 30 d1
               (ExpressError "already read" 409)).
  reflexivity.
Defined.

(** * Further properties of the user model and of POST / *)

(** ** Lookups *)

Lemma first_row_of_match (f : user_row -> jsval) (u : string) (l : list user_row) :
  index (map f (filter (fun r => equals (username r) (Some u)) l)) 0%nat
  = match find (fun r => String.eqb (username r) u) l with
    | Some r => f r
    | None => JUndefined
    end.
Proof.
  induction l as [ | r l IH]; simpl; [reflexivity | ].
  destruct (String.eqb (username r) u); [reflexivity | exact IH].
Qed.

Lemma match_has_witness {A : Type} (f : A -> bool) (l : list A) (a : A) :
  find f l = Some a -> existsb f l = true.
Proof.
  induction l as [ | x l IH]; simpl; [discriminate | ].
  destruct (f x); [reflexivity | exact IH].
Qed.

Lemma find_user_names (u : string) (d : db) (r : user_row) :
  find_user u d = Some r -> username r = u.
Proof.
  unfold find_user. intros Hr. apply find_some in Hr.
  apply String.eqb_eq. exact (proj2 Hr).
Qed.

Lemma find_user_after_append (u : string) (c : string -> string -> bool)
    (us : list user_row) (ms ms' : list message_row) (r : user_row) :
  find_user u (mkDb c (us ++ [r]) ms')
  = match find_user u (mkDb c us ms) with
    | Some x => Some x
    | None => if String.eqb (username r) u then Some r else None
    end.
Proof.
  unfold find_user; simpl.
  induction us as [ | x us IH]; simpl.
  - destruct (String.eqb (username r) u); reflexivity.
  - destruct (String.eqb (username x) u); [reflexivity | exact IH].
Qed.

Lemma unregistered_not_listed (u : string) (d : db) :
  find_user u d = None -> ~ In u (map username (users d)).
Proof.
  unfold find_user. intros Hnone Hin.
  apply in_map_iff in Hin. destruct Hin as (r & Hname & Hr).
  apply (find_none _ _ Hnone) in Hr.
  rewrite Hname, String.eqb_refl in Hr. discriminate.
Qed.

(** ** What each method does, by whether the username is registered *)

Lemma register_cases `{Bcrypt} `{Config} (u p f l ph : string) (now : Z) (d : db) :
  User.register u p f l ph now d
  = (match find_user u d with
     | Some _ => d
     | None =>
         mkDb (collation d)
              (users d ++ [mkUser u (bcrypt_hash p BCRYPT_WORK_FACTOR) f l ph now now])
              (messages d)
     end,
     Rejected (ReferenceError "next is not defined")).
Proof.
  unfold User.register, try_catch, bind. cbv zeta. rewrite insert_users.
  unfold find_user.
  destruct (find _ (users d)) as [r | ] eqn:Hu.
  - rewrite (match_has_witness _ _ _ Hu). reflexivity.
  - rewrite (no_match_no_witness _ _ Hu). reflexivity.
Qed.

Lemma select_user (u : string) (now : Z) (d : db) :
  db_query SELECT_user [JStr u] now d
  = (d, inr (map (fun r => project ["username"; "first_name"; "last_name"; "phone";
                                    "join_at"; "last_login_at"] (user_fields r))
                 (filter (fun r => equals (username r) (Some u)) (users d)))).
Proof. reflexivity. Qed.

Lemma get_cases (u : string) (now : Z) (d : db) :
  User.get u now d = (d, Rejected (ReferenceError "next is not defined")).
Proof.
  unfold User.get, try_catch, bind.
  rewrite select_user, first_row_of_match.
  destruct (find _ (users d)); reflexivity.
Qed.

Lemma authenticate_cases `{Bcrypt} (u p : string) (now : Z) (d : db) :
  User.authenticate u p now d
  = (d, Return match find_user u d with
               | Some r => JBool (bcrypt_compare p (password r))
               | None => JUndefined
               end).
Proof.
  destruct (find_user u d) as [r | ] eqn:Hu.
  - apply authenticate_registered. exact Hu.
  - apply authenticate_unregistered. exact Hu.
Qed.

(** ** [User.get] *)



(** ** [User.register] and what follows a registration *)

(** X2.  [register] never answers: whether it stored the row or the
    username was taken, its promise is rejected with the same
    ReferenceError, so the caller cannot tell a registration that took
    place from one that did not. *)
Theorem register_never_answers `{Bcrypt} `{Config}
    (u p f l ph : string) (now : Z) (d : db) :
  snd (User.register u p f l ph now d)
  = Rejected (ReferenceError "next is not defined").
Proof. rewrite register_cases. reflexivity. Qed.

(** X3.  Registering a username that is taken stores nothing: the
    database is left as it was, and the unique-key error does not reach
    the caller, whose promise is rejected with the ReferenceError. *)
Theorem register_taken_username_is_rejected `{Bcrypt} `{Config}
    (u p f l ph : string) (now : Z) (d : db) (r : user_row) :
  find_user u d = Some r ->
  User.register u p f l ph now d
  = (d, Rejected (ReferenceError "next is not defined"))
  /\ db_query INSERT_users
       [JStr u; JStr (bcrypt_hash p BCRYPT_WORK_FACTOR); JStr f; JStr l; JStr ph]
       now d
     = (d, inl (DatabaseError
                  "duplicate key value violates unique constraint users_pkey")).
Proof.
  intros Hr. rewrite register_cases, Hr. split; [reflexivity | ].
  rewrite insert_users. unfold find_user in Hr.
  rewrite (match_has_witness _ _ _ Hr). reflexivity.
Qed.

Lemma register_taken_username_is_rejected_witness :
  find_user "alice" scenario = Some alice
  /\ @User.register tagging_bcrypt twelve_rounds
       "alice" "other" "Alice" "Again" "555-0009" 20 scenario
     = (scenario, Rejected (ReferenceError "next is not defined")).
Proof.
  split; [reflexivity | ].
  apply (@register_taken_username_is_rejected tagging_bcrypt twelve_rounds
           "alice" "other" "Alice" "Again" "555-0009" 20 scenario alice).
  reflexivity.
Defined.

(** X4.  After a successful registration with password [p], authenticating
    that username with any password [p'] returns the boolean bcrypt gives
    for [p'] against the hash it derived from [p], and changes nothing. *)
Theorem register_then_authenticate `{Bcrypt} `{Config}
    (u p f l ph p' : string) (now now' : Z) (d : db) :
  find_user u d = None ->
  let d' := fst (User.register u p f l ph now d) in
  User.authenticate u p' now' d'
  = (d', Return (JBool (bcrypt_compare p' (bcrypt_hash p BCRYPT_WORK_FACTOR)))).
Proof.
  intros Hfree d'. subst d'. rewrite register_cases, Hfree. simpl fst.
  rewrite authenticate_cases.
  rewrite (find_user_after_append u (collation d) (users d) (messages d) (messages d)).
  destruct d as [c us ms]; simpl in *. rewrite Hfree. simpl.
  rewrite String.eqb_refl. reflexivity.
Qed.

Lemma register_then_authenticate_witness :
  find_user "dave" scenario = None
  /\ @User.authenticate tagging_bcrypt "dave" "pw4" 30
       (fst (@User.register tagging_bcrypt twelve_rounds
               "dave" "pw4" "Dave" "Dunn" "555-0004" 20 scenario))
     = (fst (@User.register tagging_bcrypt twelve_rounds
               "dave" "pw4" "Dave" "Dunn" "555-0004" 20 scenario),
        Return (JBool true))
  /\ @User.authenticate tagging_bcrypt "dave" "guess" 30
       (fst (@User.register tagging_bcrypt twelve_rounds
               "dave" "pw4" "Dave" "Dunn" "555-0004" 20 scenario))
     = (fst (@User.register tagging_bcrypt twelve_rounds
               "dave" "pw4" "Dave" "Dunn" "555-0004" 20 scenario),
        Return (JBool false)).
Proof.
  split; [reflexivity | ]. split.
  - apply (@register_then_authenticate tagging_bcrypt twelve_rounds
             "dave" "pw4" "Dave" "Dunn" "555-0004" "pw4" 20 30 scenario).
    reflexivity.
  - apply (@register_then_authenticate tagging_bcrypt twelve_rounds
             "dave" "pw4" "Dave" "Dunn" "555-0004" "guess" 20 30 scenario).
    reflexivity.
Defined.

(** X6.  Registering one username twice: the second attempt, whatever
    password and names it brings, leaves the database as the first left
    it and is rejected, and the stored row is still the one of the first,
    so the first password is the one that still authenticates. *)
Theorem register_twice_keeps_first `{Bcrypt} `{Config}
    (u p1 f1 l1 ph1 p2 f2 l2 ph2 : string) (now1 now2 : Z) (d : db) :
  find_user u d = None ->
  let d1 := fst (User.register u p1 f1 l1 ph1 now1 d) in
  User.register u p2 f2 l2 ph2 now2 d1
  = (d1, Rejected (ReferenceError "next is not defined"))
  /\ find_user u d1
     = Some (mkUser u (bcrypt_hash p1 BCRYPT_WORK_FACTOR) f1 l1 ph1 now1 now1).
Proof.
  intros Hfree d1.
  assert (Hrow : find_user u d1
                 = Some (mkUser u (bcrypt_hash p1 BCRYPT_WORK_FACTOR) f1 l1 ph1 now1 now1)).
  { subst d1. rewrite register_cases, Hfree. simpl fst.
    rewrite (find_user_after_append u (collation d) (users d) (messages d) (messages d)).
    destruct d as [c us ms]; simpl in *. rewrite Hfree. simpl.
    rewrite String.eqb_refl. reflexivity. }
  split; [ | exact Hrow].
  rewrite register_cases, Hrow. reflexivity.
Qed.

Lemma register_twice_keeps_first_witness :
  find_user "dave" scenario = None
  /\ @User.register tagging_bcrypt twelve_rounds
       "dave" "second" "D" "D" "0" 30
       (fst (@User.register tagging_bcrypt twelve_rounds
               "dave" "pw4" "Dave" "Dunn" "555-0004" 20 scenario))
     = (fst (@User.register tagging_bcrypt twelve_rounds
               "dave" "pw4" "Dave" "Dunn" "555-0004" 20 scenario),
        Rejected (ReferenceError "next is not defined")).
Proof.
  split; [reflexivity | ].
  apply (@register_twice_keeps_first tagging_bcrypt twelve_rounds
           "dave" "pw4" "Dave" "Dunn" "555-0004" "second" "D" "D" "0" 20 30 scenario).
  reflexivity.
Defined.

(** X7.  A registration, accepted or rejected, leaves every row that was
    registered before as it was (hash, names, phone and both timestamps)
    and leaves the messages alone. *)
Theorem register_leaves_existing_rows `{Bcrypt} `{Config}
    (u p f l ph u' : string) (now : Z) (d : db) (r : user_row) :
  find_user u' d = Some r ->
  find_user u' (fst (User.register u p f l ph now d)) = Some r
  /\ messages (fst (User.register u p f l ph now d)) = messages d.
Proof.
  intros Hr. rewrite register_cases.
  destruct (find_user u d); simpl fst; [split; [exact Hr | reflexivity] | ].
  split; [ | reflexivity].
  rewrite (find_user_after_append u' (collation d) (users d) (messages d) (messages d)).
  destruct d as [c us ms]; simpl in *. rewrite Hr. reflexivity.
Qed.

Lemma register_leaves_existing_rows_witness :
  find_user "alice" scenario = Some alice
  /\ find_user "alice"
       (fst (@User.register tagging_bcrypt twelve_rounds
               "dave" "pw4" "Dave" "Dunn" "555-0004" 20 scenario)) = Some alice.
Proof.
  split; [reflexivity | ].
  apply (@register_leaves_existing_rows tagging_bcrypt twelve_rounds
           "dave" "pw4" "Dave" "Dunn" "555-0004" "alice" 20 scenario alice).
  reflexivity.
Defined.

(** ** [User.authenticate] *)

(** X9.  [authenticate] returns the boolean [true] exactly when the
    username is registered and bcrypt accepts the password against the
    stored hash. *)
Theorem authenticate_true_iff `{Bcrypt} (u p : string) (now : Z) (d : db) :
  User.authenticate u p now d = (d, Return (JBool true))
  <-> exists r, find_user u d = Some r /\ bcrypt_compare p (password r) = true.
Proof.
  rewrite authenticate_cases. split.
  - destruct (find_user u d) as [r | ]; intros Heq; [ | discriminate].
    exists r. split; [reflexivity | ]. congruence.
  - intros (r & -> & ->). reflexivity.
Qed.

Lemma authenticate_true_iff_witness :
  @User.authenticate tagging_bcrypt "alice" "pw1" 20 scenario
  = (scenario, Return (JBool true)).
Proof.
  apply (proj2 (@authenticate_true_iff tagging_bcrypt "alice" "pw1" 20 scenario)).
  exists alice. split; reflexivity.
Defined.

(** ** What the methods of [User] leave alone *)

(** X10.  Of the methods of [User], [updateLoginTimestamp], [all], [get],
    [messagesFrom] and [messagesTo] leave the whole database as they found
    it, whatever they are given and however they end. *)
Theorem user_methods_besides_register_write_nothing (u : string) (now : Z) (d : db) :
  fst (User.updateLoginTimestamp u now d) = d
  /\ fst (User.all now d) = d
  /\ fst (User.get u now d) = d
  /\ fst (User.messagesFrom u now d) = d
  /\ fst (User.messagesTo u now d) = d.
Proof.
  split; [rewrite updateLoginTimestamp_never_updates; reflexivity | ].
  split; [reflexivity | ].
  split; [rewrite get_cases; reflexivity | ].
  split; [ | rewrite messagesTo_always_fails; reflexivity].
  rewrite messagesFrom_always_fails. reflexivity.
Qed.

Lemma user_method_step `{Bcrypt} `{Config} `{MessageModel}
    (op : operation) (now : Z) (d : db) :
  is_user_method op = true ->
  fst (perform op now d) = d
  \/ exists r, find_user (username r) d = None
               /\ fst (perform op now d) = mkDb (collation d) (users d ++ [r]) (messages d).
Proof.
  destruct op as [u p f l ph | u p | u | | u | u | u | req | req | req];
    cbn [is_user_method perform]; try discriminate; intros _.
  - rewrite register_cases.
    destruct (find_user u d) eqn:Hu; [left; reflexivity | ].
    right. eexists. split; [ | reflexivity]. exact Hu.
  - left. rewrite authenticate_cases. reflexivity.
  - left. rewrite updateLoginTimestamp_never_updates. reflexivity.
  - left. reflexivity.
  - left. rewrite get_cases. reflexivity.
  - left. rewrite messagesFrom_always_fails. reflexivity.
  - left. rewrite messagesTo_always_fails. reflexivity.
Qed.

(** X11.  Over any run of methods of [User], rows of [users] are only
    added at the end: no row is removed or altered (so no hash, name,
    [join_at] or [last_login_at] of a registered user ever changes) and
    the messages stay as they were. *)
Theorem user_methods_only_add_users `{Bcrypt} `{Config} `{MessageModel}
    (ops : list (operation * Z)) (d : db) :
  forallb (fun x => is_user_method (fst x)) ops = true ->
  exists added, run ops d = mkDb (collation d) (users d ++ added) (messages d).
Proof.
  revert d. induction ops as [ | [op now] ops IH]; intros d Hops; simpl in *.
  - exists []. rewrite app_nil_r. destruct d; reflexivity.
  - apply andb_prop in Hops. destruct Hops as [Hop Hops].
    destruct (user_method_step op now d Hop) as [-> | (r & _ & ->)].
    + apply IH. exact Hops.
    + destruct (IH (mkDb (collation d) (users d ++ [r]) (messages d)) Hops) as (added & ->).
      exists (r :: added). simpl. rewrite <- app_assoc. reflexivity.
Qed.

Lemma user_methods_only_add_users_witness :
  exists added,
    @run tagging_bcrypt twelve_rounds (spec_model KeepReadAt)
      [(Register "dave" "pw4" "Dave" "Dunn" "555-0004", 20);
       (UpdateLoginTimestamp "alice", 30);
       (Register "alice" "other" "A" "A" "0", 40);
       (MessagesTo "bob", 50)] scenario
    = mkDb (collation scenario) (users scenario ++ added) (messages scenario).
Proof.
  apply (@user_methods_only_add_users tagging_bcrypt twelve_rounds
           (spec_model KeepReadAt)).
  reflexivity.
Defined.

(** X12.  If no two rows of [users] share a username, that is still so
    after any run of methods of [User]. *)
Theorem user_methods_keep_usernames_unique `{Bcrypt} `{Config} `{MessageModel}
    (ops : list (operation * Z)) (d : db) :
  forallb (fun x => is_user_method (fst x)) ops = true ->
  usernames_unique d ->
  usernames_unique (run ops d).
Proof.
  revert d. induction ops as [ | [op now] ops IH]; intros d Hops Hd; simpl in *.
  - exact Hd.
  - apply andb_prop in Hops. destruct Hops as [Hop Hops].
    apply IH; [exact Hops | ].
    destruct (user_method_step op now d Hop) as [-> | (r & Hfree & ->)];
      [exact Hd | ].
    unfold usernames_unique in *. simpl. rewrite map_app. simpl.
    eapply Permutation_NoDup; [apply Permutation_cons_append | ].
    constructor; [ | exact Hd].
    apply unregistered_not_listed. exact Hfree.
Qed.

Lemma user_methods_keep_usernames_unique_witness :
  usernames_unique scenario
  /\ usernames_unique
       (@run tagging_bcrypt twelve_rounds (spec_model KeepReadAt)
          [(Register "dave" "pw4" "Dave" "Dunn" "555-0004", 20);
           (Register "dave" "again" "D" "D" "0", 30);
           (Register "alice" "other" "A" "A" "0", 40)] scenario).
Proof.
  assert (Hscenario : usernames_unique scenario).
  { unfold usernames_unique. simpl.
    repeat (constructor; [simpl; intuition discriminate | ]). constructor. }
  split; [exact Hscenario | ].
  apply (@user_methods_keep_usernames_unique tagging_bcrypt twelve_rounds
           (spec_model KeepReadAt)); [reflexivity | exact Hscenario].
Defined.

(** ** POST / *)

(** X13.  Whatever the message model, when POST / answers it answers with
    [{to_username, body: {message}}]: [to_username] is the one of the
    request body and [message] is what [Message.create] returned for the
    body's [from_username], [to_username] and [body]. *)
Theorem post_route_answer `{MessageModel} (req : request) (now : Z) (d d' : db)
    (v : jsval) :
  Router.post_root req now d = (d', ResJson v) ->
  keys v = ["to_username"; "body"]
  /\ prop v "to_username" = prop (req_body req) "to_username"
  /\ exists message,
       prop v "body" = JObj [("message", message)]
       /\ Message_create (prop (req_body req) "from_username")
                         (prop (req_body req) "to_username")
                         (prop (req_body req) "body") now d
          = (d', inr message).
Proof.
  unfold Router.post_root, try_next, bind. cbv zeta.
  assert (Hbody : destructure (req_body req) now d = (d, inr (req_body req))
                  \/ exists e, destructure (req_body req) now d = (d, inl e)).
  { destruct (req_body req); unfold destructure, ret, throw;
      first [left; reflexivity | right; eexists; reflexivity]. }
  destruct Hbody as [-> | (e & ->)]; [ | discriminate].
  destruct (Message_create _ _ _ now d) as [d1 [e | message]];
    unfold ret; intros Heq; inversion Heq; subst.
  repeat split. exists message. split; reflexivity.
Qed.

Lemma post_route_answer_witness :
  exists d' v,
    @Router.post_root (spec_model KeepReadAt)
      (mkRequest 0 (JObj [("from_username", JStr "bob");
                          ("to_username", JStr "alice");
                          ("body", JStr "yes")]) (Some "bob")) 20 scenario
    = (d', ResJson v)
    /\ keys v = ["to_username"; "body"]
    /\ prop v "to_username" = JStr "alice".
Proof.
  do 2 eexists. split; [reflexivity | ].
  destruct (@post_route_answer (spec_model KeepReadAt)
              (mkRequest 0 (JObj [("from_username", JStr "bob");
                                  ("to_username", JStr "alice");
                                  ("body", JStr "yes")]) (Some "bob"))
              20 scenario _ _ eq_refl) as (Hkeys & Hto & _).
  split; [exact Hkeys | exact Hto].
Defined.

(** X14.  Whatever the message model, a POST / whose request has no body
    ([undefined] or [null]) hands a TypeError to [next] before
    [Message.create] is called, and leaves the database as it was. *)
Theorem post_route_without_body `{MessageModel} (req : request) (now : Z) (d : db) :
  req_body req = JUndefined \/ req_body req = JNull ->
  Router.post_root req now d = (d, Next (TypeError "Cannot destructure")).
Proof.
  intros [Hb | Hb]; unfold Router.post_root, try_next, bind; rewrite Hb;
    reflexivity.
Qed.

Lemma post_route_without_body_witness :
  @Router.post_root (spec_model KeepReadAt)
    (mkRequest 0 JUndefined (Some "alice")) 20 scenario
  = (scenario, Next (TypeError "Cannot destructure")).
Proof.
  apply (@post_route_without_body (spec_model KeepReadAt)
           (mkRequest 0 JUndefined (Some "alice")) 20 scenario).
  left. reflexivity.
Defined.

(** X15.  Whatever the message model, POST / looks at nothing of the
    request but its body: two requests with one body are served alike, so
    the sender of the new message is the [from_username] of the body and
    the logged-in user plays no part. *)
Theorem post_route_takes_sender_from_body `{MessageModel} (req1 req2 : request)
    (now : Z) (d : db) :
  req_body req1 = req_body req2 ->
  Router.post_root req1 now d = Router.post_root req2 now d.
Proof.
  intros Hbody. unfold Router.post_root. rewrite Hbody. reflexivity.
Qed.

Lemma post_route_takes_sender_from_body_witness :
  @Router.post_root (spec_model KeepReadAt)
    (mkRequest 0 (JObj [("from_username", JStr "alice");
                        ("to_username", JStr "bob");
                        ("body", JStr "hello")]) (Some "carol")) 20 scenario
  = @Router.post_root (spec_model KeepReadAt)
      (mkRequest 7 (JObj [("from_username", JStr "alice");
                          ("to_username", JStr "bob");
                          ("body", JStr "hello")]) (Some "alice")) 20 scenario.
Proof.
  apply (@post_route_takes_sender_from_body (spec_model KeepReadAt)).
  reflexivity.
Defined.

(** X16.  Whatever the message model, when the request has a body and
    [Message.create] throws, POST / hands that very error to [next] and
    the database is as [Message.create] left it. *)
Theorem post_route_forwards_error `{MessageModel} (req : request) (now : Z)
    (d d' : db) (e : error) :
  req_body req <> JUndefined -> req_body req <> JNull ->
  Message_create (prop (req_body req) "from_username")
                 (prop (req_body req) "to_username")
                 (prop (req_body req) "body") now d = (d', inl e) ->
  Router.post_root req now d = (d', Next e).
Proof.
  intros Hundefined Hnull Hcreate.
  unfold Router.post_root, try_next, bind. cbv zeta.
  assert (Hbody : destructure (req_body req) now d = (d, inr (req_body req))).
  { destruct (req_body req); try reflexivity; congruence. }
  rewrite Hbody, Hcreate. reflexivity.
Qed.

Lemma post_route_forwards_error_witness :
  @Router.post_root (spec_model KeepReadAt)
    (mkRequest 0 (JObj [("from_username", JStr "alice");
                        ("to_username", JStr "nobody");
                        ("body", JStr "hello")]) (Some "alice")) 20 scenario
  = (scenario, Next (ExpressError "No such user" 404)).
Proof.
  apply (@post_route_forwards_error (spec_model KeepReadAt)
           (mkRequest 0 (JObj [("from_username", JStr "alice");
                               ("to_username", JStr "nobody");
                               ("body", JStr "hello")]) (Some "alice"))
           20 scenario scenario (ExpressError "No such user" 404));
    [discriminate | discriminate | reflexivity].
Defined.
